(** * terminal_interativo.py: the interactive terminal of the Pet Store agent

    A shallow embedding of [src/terminal_interativo.py]: the module-level
    start-up (credential check, constants, toolset and agent construction),
    [setup_session_and_runner], [call_agent], [interactive_terminal] and the
    [__main__] block, followed by the properties of the repository's
    specification stated over these definitions.

    Python values are modelled as the script sees them:
    - a [str] is the list of its Unicode code points;
    - [os.environ] is a finite map from names to values;
    - [print], [input], the calls into the agent framework and [uuid.uuid4]
      are recorded, in order, in a trace of actions;
    - a raised exception is a value of [exn], split the way the script's
      [except] clauses split the class hierarchy. *)

From Stdlib Require Import NArith Ascii String.
From stdpp Require Import base option list gmap.

Local Open Scope N_scope.

(** ** Python strings *)

Module PyStr.

(** A Python [str]: a sequence of Unicode code points. *)
Definition pystr : Type := list N.

(** Decoding of the UTF-8 bytes of a source literal into code points, so that
    the literals below read as they do in the script. *)
Fixpoint utf8_decode (bs : list N) : pystr :=
  match bs with
  | [] => []
  | b0 :: r0 =>
    if b0 <? 128 then b0 :: utf8_decode r0 else
    match r0 with
    | [] => []
    | b1 :: r1 =>
      if b0 <? 224 then ((b0 mod 32) * 64 + b1 mod 64) :: utf8_decode r1 else
      match r1 with
      | [] => []
      | b2 :: r2 =>
        if b0 <? 240
        then ((b0 mod 16) * 4096 + (b1 mod 64) * 64 + b2 mod 64) :: utf8_decode r2
        else
        match r2 with
        | [] => []
        | b3 :: r3 =>
          ((b0 mod 8) * 262144 + (b1 mod 64) * 4096 + (b2 mod 64) * 64 + b3 mod 64)
            :: utf8_decode r3
        end
      end
    end
  end.

Definition py (s : string) : pystr :=
  utf8_decode (map N_of_ascii (list_ascii_of_string s)).

(** [str.isspace] on one code point: the interpreter's whitespace table
    ([_PyUnicode_IsWhitespace]). *)
Definition isspace (c : N) : bool :=
  ((9 <=? c) && (c <=? 13)) || ((28 <=? c) && (c <=? 32))
  || (c =? 133) || (c =? 160) || (c =? 5760)
  || ((8192 <=? c) && (c <=? 8202))
  || (c =? 8232) || (c =? 8233) || (c =? 8239) || (c =? 8287) || (c =? 12288).

Fixpoint lstrip (s : pystr) : pystr :=
  match s with
  | [] => []
  | c :: r => if isspace c then lstrip r else s
  end.

Definition rstrip (s : pystr) : pystr := rev (lstrip (rev s)).

(** [s.strip()]: leading, then trailing whitespace removed. *)
Definition strip (s : pystr) : pystr := rstrip (lstrip s).

Definition is_ascii (c : N) : bool := c <? 128.

Definition ascii_lower (c : N) : N :=
  if (65 <=? c) && (c <=? 90) then c + 32 else c.

Definition ascii_upper (c : N) : N :=
  if (97 <=? c) && (c <=? 122) then c - 32 else c.

(** [s.lower()]. On a string of ASCII characters it maps [A-Z] to [a-z] and
    leaves the rest; on any other string it is the interpreter's Unicode
    lower-casing, which is not part of the script and is taken as the
    parameter [unicode_lower]. *)
Definition lower (unicode_lower : pystr -> pystr) (s : pystr) : pystr :=
  if forallb is_ascii s then map ascii_lower s else unicode_lower s.

(** [not s] for a string: true on the empty string only. *)
Definition falsy (s : pystr) : bool :=
  match s with [] => true | _ => false end.

Definition starts_with_space (s : pystr) : bool :=
  match s with [] => false | c :: _ => isspace c end.

Definition ends_with_space (s : pystr) : bool := starts_with_space (rev s).

End PyStr.
Import PyStr.

(** ** Exceptions, framework values and the trace *)

(** What a [raise] carries, split as the script's handlers split it:
    [except Exception] catches the first constructor only,
    [except KeyboardInterrupt] the second, and nothing in the script catches
    the remaining [BaseException] classes (SystemExit, CancelledError, ...).
    For [Exception cls msg], [str(e)] is [msg]. *)
Inductive exn :=
| Exception (cls msg : pystr)
| KeyboardInterrupt
| OtherBaseException (cls msg : pystr).

Inductive result (A : Type) :=
| Return (a : A)
| Raise (e : exn).
Arguments Return {A} a.
Arguments Raise {A} e.

(** [google.genai.types]: the fields the script reads or writes. *)
Record Part := { text : option pystr }.
Record Content := { role : option pystr; parts : option (list Part) }.
Record FunctionCall := { name : option pystr }.

(** An event of the runner, seen through the three observations
    [call_agent] makes of it. *)
Record Event := {
  get_function_calls : list FunctionCall;
  is_final_response : bool;
  content : option Content
}.

(** The asynchronous sequence [run_async] returns: the events it yields and
    how the iteration ends, exhausted ([None]) or by raising. *)
Record stream := { yielded : list Event; ending : option exn }.

Inductive action :=
| Print (s end_ : pystr)
| Input (prompt : pystr)
| Uuid4
| BuildToolset
| BuildAgent (agent_name model : pystr)
| CreateSession (app_name user_id session_id : pystr)
| RunAsync (user_id session_id : pystr) (new_message : Content).

(** [print(s)] with the default line end. *)
Definition print (s : pystr) : action := Print s [10].

(** What one call of [input] does: returns a line or raises. *)
Inductive input_outcome :=
| Line (s : pystr)
| InputRaises (e : exn).

(** How one pass through the body of [while True] ends. *)
Inductive control :=
| Continue
| Break
| Propagate (e : exn).

(** Where the loop (and the process) stands when the given input is used
    up: blocked in [input], left through [break] (or ended normally), or left
    by an exception no handler caught. *)
Inductive status :=
| AwaitingInput
| Exiting
| Raised (e : exn).

(** ** Constants *)

Definition APP_NAME_OPENAPI : pystr := py "openapi_petstore_app".
Definition USER_ID_OPENAPI : pystr := py "user_openapi_1".
Definition AGENT_NAME_OPENAPI : pystr := py "petstore_manager_agent".
Definition GEMINI_MODEL : pystr := py "gemini-2.0-flash".

Definition fallback_text : pystr := py "Agent não forneceu uma resposta final.".
Definition error_marker : pystr := py "Erro: ".
Definition exit_phrases : list pystr := [py "sair"; py "quit"; py "exit"; py "q"].
Definition input_prompt : pystr := [10] ++ py "🗣️  Você: ".
Definition farewell : pystr := py "👋 Tchau! Até logo!".
Definition interrupt_farewell : pystr := [10] ++ py "👋 Interrompido pelo usuário. Tchau!".
Definition empty_warning : pystr := py "⚠️  Por favor, digite algo!".
Definition processing_notice : pystr := py "🤖 Agente: Processando...".
Definition credential_message : pystr :=
  py "GOOGLE_API_KEY environment variable is required. Please set it before running the script.".

Definition banner : list action :=
  [ print (py "🐕 ===== TERMINAL INTERATIVO - PET STORE AGENT =====");
    print (py "📋 Comandos disponíveis:");
    print (py "   - Listar pets: 'mostre os pets', 'quais pets estão disponíveis'");
    print (py "   - Criar pet: 'crie um gato chamado Mimi', 'adicione um cão Rex'");
    print (py "   - Buscar pet: 'mostre o pet 123', 'info do pet 456'");
    print (py "   - Sair: 'sair', 'quit', 'exit'");
    print (replicate 60 61) ].

(** [f"{x}"] for a value that may be [None]. *)
Definition format_opt (x : option pystr) : pystr :=
  match x with Some s => s | None => py "None" end.

(** Truth value of [event.content and event.content.parts]. *)
Definition has_parts (event : Event) : option (Part * list Part) :=
  match content event with
  | Some c => match parts c with
              | Some (p :: ps) => Some (p, ps)
              | _ => None
              end
  | None => None
  end.

(** ** call_agent *)

(** The body of [async for event in ...] in [call_agent], run over the
    events of the stream with the current [final_response_text]; when the
    events are used up the iteration ends as the stream does. *)
Fixpoint consume (events : list Event) (end_ : option exn)
    (final_response_text : pystr) : list action * result pystr :=
  match events with
  | [] =>
    match end_ with
    | None => ([], Return final_response_text)
    | Some e => ([], Raise e)
    end
  | event :: rest =>
    match get_function_calls event with
    | call :: _ =>
      let '(t, r) := consume rest end_ final_response_text in
      (print (py "🔧 Executando: " ++ format_opt (name call)) :: t, r)
    | [] =>
      if is_final_response event then
        match has_parts event with
        | Some (p, _) =>
          match text p with
          | Some s => consume rest end_ (strip s)
          | None =>
            ([], Raise (Exception (py "AttributeError")
                          (py "'NoneType' object has no attribute 'strip'")))
          end
        | None => consume rest end_ final_response_text
        end
      else consume rest end_ final_response_text
    end
  end.

(** [except Exception as e: return f"Erro: {str(e)}"]. *)
Definition catch_turn (r : result pystr) : result pystr :=
  match r with
  | Raise (Exception _ msg) => Return (error_marker ++ msg)
  | _ => r
  end.

(** ** Vocabulary of the specification *)

(** An event the final-response branch of [call_agent] takes: it requests no
    tool invocation, is marked final and has a non-empty list of parts. *)
Definition sets_response (event : Event) : bool :=
  match get_function_calls event with
  | [] => is_final_response event && bool_decide (is_Some (has_parts event))
  | _ :: _ => false
  end.

(** The text of the first part of the event's content. *)
Definition first_text (event : Event) : option pystr :=
  match has_parts event with
  | Some (p, _) => text p
  | None => None
  end.

(** An event whose handling raises: the branch is taken and the first part
    has no text. *)
Definition handling_raises (event : Event) : bool :=
  sets_response event && bool_decide (first_text event = None).

Definition whitespace_only (s : pystr) : Prop := Forall (fun c => isspace c = true) s.

(** A line that is an exit phrase up to the case of its letters. *)
Definition matches_ignoring_case (line phrase : pystr) : Prop :=
  Forall2 (fun c p => c = p \/ c = ascii_upper p) line phrase.

Definition is_dispatch (a : action) : bool :=
  match a with RunAsync _ _ _ => true | _ => false end.

Definition is_uuid4 (a : action) : bool :=
  match a with Uuid4 => true | _ => false end.

Definition is_create_session (a : action) : bool :=
  match a with CreateSession _ _ _ => true | _ => false end.

(** The action names no user or session other than the given ones. *)
Definition references (uid sid : pystr) (a : action) : Prop :=
  match a with
  | RunAsync u s _ => u = uid /\ s = sid
  | CreateSession _ u s => u = uid /\ s = sid
  | _ => True
  end.

(** The progress notice an event gives rise to, if it requests a tool
    invocation. *)
Definition tool_notice (event : Event) : option action :=
  match get_function_calls event with
  | call :: _ => Some (print (py "🔧 Executando: " ++ format_opt (name call)))
  | [] => None
  end.

Definition no_calls (event : Event) : bool :=
  match get_function_calls event with [] => true | _ :: _ => false end.

(** What [None.strip()] raises. *)
Definition strip_of_none : exn :=
  Exception (py "AttributeError") (py "'NoneType' object has no attribute 'strip'").

Definition is_input (a : action) : bool :=
  match a with Input _ => true | _ => false end.

(** ** Sample worlds *)

(** A runner that answers the successive turns with the given streams, and
    with an empty stream once they are used up. *)
Definition replay (pending : list stream) (_ _ : pystr) (_ : Content)
    : stream * list stream :=
  match pending with
  | [] => ({| yielded := []; ending := None |}, [])
  | s :: rest => (s, rest)
  end.

Definition text_content (s : pystr) : Content :=
  {| role := Some (py "model"); parts := Some [ {| text := Some s |} ] |}.

Definition tool_event (tool : pystr) : Event :=
  {| get_function_calls := [ {| name := Some tool |} ];
     is_final_response := false;
     content := Some {| role := Some (py "model"); parts := Some [ {| text := None |} ] |} |}.

Definition final_event (s : pystr) : Event :=
  {| get_function_calls := []; is_final_response := true;
     content := Some (text_content s) |}.

(** A final event that also requests a tool invocation (a long-running
    tool). *)
Definition final_event_with_call (tool s : pystr) : Event :=
  {| get_function_calls := [ {| name := Some tool |} ];
     is_final_response := true;
     content := Some (text_content s) |}.

Definition sample_uuid : pystr := py "00000000-0000-4000-8000-000000000000".

(** The sample lines are ASCII, for which [lower] does not consult the
    interpreter's table. *)
Definition sample_lower (s : pystr) : pystr := s.

Definition ended (events : list Event) : stream :=
  {| yielded := events; ending := None |}.

Definition raising (events : list Event) (e : exn) : stream :=
  {| yielded := events; ending := Some e |}.

(** A final event whose only part holds no text (a part of another
    kind). *)
Definition final_event_without_text : Event :=
  {| get_function_calls := []; is_final_response := true;
     content := Some {| role := Some (py "model");
                        parts := Some [ {| text := None |} ] |} |}.

(** A runner that answers every turn with the same stream. *)
Definition always (s : stream) (_ : unit) (_ _ : pystr) (_ : Content)
    : stream * unit := (s, tt).

Definition sample_environ : gmap pystr pystr :=
  {[ py "GOOGLE_API_KEY" := py "secret" ]}.

(** ** The script *)

Section Script.

(** What the script does not own. *)

(** The interpreter's lower-casing of strings that are not all ASCII. *)
Variable unicode_lower : pystr -> pystr.

(** [str] of the value the one call of [uuid.uuid4()] returns. *)
Variable uuid4 : pystr.

(** The runner of the agent framework: its state, its state once the session
    is created, and [run_async], which answers a message with a stream of
    events. *)
Variable RunnerState : Type.
Variable runner_openapi : RunnerState.
Variable run_async : RunnerState -> pystr -> pystr -> Content -> stream * RunnerState.

(** Whether building the toolset and creating the session raise. *)
Variable toolset_error : option exn.
Variable create_session_error : option exn.

Definition SESSION_ID_OPENAPI : pystr := py "session_openapi_" ++ uuid4.

Definition setup_session_and_runner : list action * result RunnerState :=
  ([CreateSession APP_NAME_OPENAPI USER_ID_OPENAPI SESSION_ID_OPENAPI],
   match create_session_error with
   | Some e => Raise e
   | None => Return runner_openapi
   end).

(** [types.Content(role='user', parts=[types.Part(text=query)])]. *)
Definition new_message (query : pystr) : Content :=
  {| role := Some (py "user"); parts := Some [ {| text := Some query |} ] |}.

Definition call_agent (query : pystr) (runner : RunnerState)
    : list action * RunnerState * result pystr :=
  let content := new_message query in
  let final_response_text := fallback_text in
  let '(s, runner') := run_async runner USER_ID_OPENAPI SESSION_ID_OPENAPI content in
  let '(t, r) := consume (yielded s) (ending s) final_response_text in
  (RunAsync USER_ID_OPENAPI SESSION_ID_OPENAPI content :: t, runner', catch_turn r).

(** The event sequence the runner answers the turn with. *)
Definition turn_stream (query : pystr) (runner : RunnerState) : stream :=
  (run_async runner USER_ID_OPENAPI SESSION_ID_OPENAPI (new_message query)).1.

(** The two [except] clauses of the loop body. *)
Definition loop_handlers (e : exn) : list action * control :=
  match e with
  | KeyboardInterrupt => ([print interrupt_farewell], Break)
  | Exception _ msg => ([print ([10] ++ py "❌ Erro: " ++ msg)], Continue)
  | OtherBaseException _ _ => ([], Propagate e)
  end.

(** One pass through the body of [while True], given what [input] does. *)
Definition iteration (runner : RunnerState) (inp : input_outcome)
    : list action * RunnerState * control :=
  match inp with
  | InputRaises e =>
    let '(t, c) := loop_handlers e in (Input input_prompt :: t, runner, c)
  | Line l =>
    let user_input := strip l in
    if bool_decide (lower unicode_lower user_input ∈ exit_phrases) then
      ([Input input_prompt; print farewell], runner, Break)
    else if falsy user_input then
      ([Input input_prompt; print empty_warning], runner, Continue)
    else
      let '(t, runner', r) := call_agent user_input runner in
      match r with
      | Return response =>
        (Input input_prompt :: Print processing_notice [] :: t
           ++ [print ([13] ++ py "🤖 Agente: " ++ response)],
         runner', Continue)
      | Raise e =>
        let '(th, c) := loop_handlers e in
        (Input input_prompt :: Print processing_notice [] :: t ++ th, runner', c)
      end
  end.

(** [while True] over the outcomes of the successive calls of [input]. When
    they are used up the loop is blocked in the next [input], its prompt
    shown. *)
Fixpoint loop (runner : RunnerState) (script : list input_outcome)
    : list action * status :=
  match script with
  | [] => ([Input input_prompt], AwaitingInput)
  | inp :: rest =>
    let '(t, runner', c) := iteration runner inp in
    match c with
    | Continue => let '(t', st) := loop runner' rest in (t ++ t', st)
    | Break => (t, Exiting)
    | Propagate e => (t, Raised e)
    end
  end.

(** The outer [except Exception] of [interactive_terminal]. *)
Definition startup_handler (st : status) : list action * status :=
  match st with
  | Raised (Exception _ msg) =>
    ([print (py "❌ Erro ao inicializar o sistema: " ++ msg)], Exiting)
  | _ => ([], st)
  end.

Definition interactive_terminal (script : list input_outcome)
    : list action * status :=
  let '(ts, r) := setup_session_and_runner in
  let '(tb, st) :=
    match r with
    | Raise e => (ts, Raised e)
    | Return runner =>
      let '(tl, st) := loop runner script in
      (ts ++ [print (py "✅ Sistema inicializado com sucesso!");
              print (py "💬 Digite sua mensagem (ou 'sair' para terminar):")] ++ tl,
       st)
    end in
  let '(th, st') := startup_handler st in
  (banner ++ tb ++ th, st').

(** The [try] of the [__main__] block around [asyncio.run], for a run in
    which [asyncio.run] hands on what the coroutine raises. That is what it
    does unless its own handler of the interrupt signal has run (CPython
    3.11 and later), in which case it turns the cancellation of the task
    into a [KeyboardInterrupt]; signals are not part of this model. *)
Definition main_handler (st : status) : list action * status :=
  match st with
  | Raised KeyboardInterrupt => ([print ([10] ++ py "👋 Programa encerrado.")], Exiting)
  | Raised (Exception _ msg) => ([print (py "❌ Erro fatal: " ++ msg)], Exiting)
  | _ => ([], st)
  end.

(** Truth value of [os.environ.get(key)]. *)
Definition environ_get_truthy (environ : gmap pystr pystr) (key : pystr) : bool :=
  match environ !! key with
  | Some v => negb (falsy v)
  | None => false
  end.

(** The module run as a script, top to bottom. *)
Definition main (environ : gmap pystr pystr) (script : list input_outcome)
    : list action * status :=
  if negb (environ_get_truthy environ (py "GOOGLE_API_KEY")) then
    ([], Raised (Exception (py "ValueError") credential_message))
  else
    match toolset_error with
    | Some e => ([Uuid4; BuildToolset], Raised e)
    | None =>
      let '(t, st) := interactive_terminal script in
      let '(th, st') := main_handler st in
      ([Uuid4; BuildToolset; BuildAgent AGENT_NAME_OPENAPI GEMINI_MODEL] ++ t ++ th, st')
    end.


(** The actions of the loop: they draw no identifier, create no session and
    name no user or session but the fixed ones. *)
Definition loop_action (a : action) : Prop :=
  references USER_ID_OPENAPI SESSION_ID_OPENAPI a
  /\ is_uuid4 a = false /\ is_create_session a = false.

(** An outcome of [input] that neither asks to leave nor interrupts: a line
    that is not an exit phrase, or an ordinary exception. *)
Definition stays_in_loop (inp : input_outcome) : Prop :=
  match inp with
  | Line l => lower unicode_lower (strip l) ∉ exit_phrases
  | InputRaises (Exception _ _) => True
  | InputRaises _ => False
  end.

(** A runner none of whose streams ends by an interrupt or another
    exception outside [Exception]. *)
Definition runner_raises_only_exceptions : Prop :=
  forall runner uid sid msg,
    match ending (run_async runner uid sid msg).1 with
    | None | Some (Exception _ _) => True
    | Some _ => False
    end.


(** Comparisons on code points whose outcome the bounds at hand decide. *)
Ltac decide_comparisons :=
  repeat match goal with
  | |- context [?a <=? ?b] =>
    first [ rewrite (proj2 (N.leb_le a b)) by lia
          | rewrite (proj2 (N.leb_gt a b)) by lia ]
  | |- context [?a <? ?b] =>
    first [ rewrite (proj2 (N.ltb_lt a b)) by lia
          | rewrite (proj2 (N.ltb_ge a b)) by lia ]
  | |- context [?a =? ?b] =>
    first [ rewrite (proj2 (N.eqb_eq a b)) by lia
          | rewrite (proj2 (N.eqb_neq a b)) by lia ]
  end.

(** ** Facts about [strip] and [lower] *)

Lemma lstrip_no_lead s : starts_with_space (lstrip s) = false.
Proof.
  induction s as [|c r IH]; simpl; [done|].
  destruct (isspace c) eqn:Hc; [done|]. simpl. by rewrite Hc.
Qed.

Lemma lstrip_id s : starts_with_space s = false -> lstrip s = s.
Proof. destruct s as [|c r]; simpl; [done|]. by intros ->. Qed.

Lemma lstrip_whitespace s : whitespace_only s -> lstrip s = [].
Proof.
  induction 1 as [|c r Hc _ IH]; simpl; [done|]. by rewrite Hc.
Qed.

Lemma lstrip_suffix s : exists w, s = w ++ lstrip s.
Proof.
  induction s as [|c r [w Hw]]; simpl.
  - by exists [].
  - destruct (isspace c).
    + exists (c :: w). simpl. by rewrite <- Hw.
    + by exists [].
Qed.

Lemma rstrip_prefix s : exists w, s = rstrip s ++ w.
Proof.
  unfold rstrip. destruct (lstrip_suffix (rev s)) as [w Hw].
  exists (rev w). rewrite <- rev_app_distr, <- Hw. by rewrite rev_involutive.
Qed.

Lemma rstrip_no_trail s : ends_with_space (rstrip s) = false.
Proof.
  unfold ends_with_space, rstrip. rewrite rev_involutive. apply lstrip_no_lead.
Qed.

Lemma rstrip_keeps_lead s :
  starts_with_space s = false -> starts_with_space (rstrip s) = false.
Proof.
  intros Hs. destruct (rstrip_prefix s) as [w Hw].
  destruct (rstrip s) as [|c r]; [done|].
  rewrite Hw in Hs. exact Hs.
Qed.

Lemma rstrip_id s : ends_with_space s = false -> rstrip s = s.
Proof.
  unfold ends_with_space, rstrip. intros Hs.
  rewrite lstrip_id by done. apply rev_involutive.
Qed.

Lemma strip_no_lead s : starts_with_space (strip s) = false.
Proof. unfold strip. apply rstrip_keeps_lead, lstrip_no_lead. Qed.

Lemma strip_no_trail s : ends_with_space (strip s) = false.
Proof. unfold strip. apply rstrip_no_trail. Qed.

Lemma strip_whitespace s : whitespace_only s -> strip s = [].
Proof. intros Hs. unfold strip. by rewrite lstrip_whitespace. Qed.

Lemma strip_id s :
  starts_with_space s = false -> ends_with_space s = false -> strip s = s.
Proof.
  intros Hl Ht. unfold strip. rewrite lstrip_id by done. by apply rstrip_id.
Qed.

Lemma no_space_strip_id s : Forall (fun c => isspace c = false) s -> strip s = s.
Proof.
  intros Hs. apply strip_id.
  - destruct Hs; simpl; done.
  - unfold ends_with_space.
    assert (Hr : Forall (fun c => isspace c = false) (rev s))
      by (apply Forall_forall; intros c Hc; apply (proj1 (Forall_forall _ _) Hs);
          by apply list_elem_of_In, in_rev, list_elem_of_In).
    destruct Hr; simpl; done.
Qed.

Lemma lower_ascii s :
  forallb is_ascii s = true -> lower unicode_lower s = map ascii_lower s.
Proof. unfold lower. by intros ->. Qed.

Lemma fallback_text_not_empty : fallback_text <> [].
Proof. discriminate. Qed.

Lemma empty_not_exit_phrase : [] ∉ exit_phrases.
Proof.
  intros H. apply list_elem_of_In in H. vm_compute in H.
  repeat (destruct H as [H|H]; [discriminate H|]). exact H.
Qed.

(** ** Facts about [consume] and [call_agent] *)

Lemma consume_call event call calls rest end_ txt :
  get_function_calls event = call :: calls ->
  consume (event :: rest) end_ txt =
    (print (py "🔧 Executando: " ++ format_opt (name call)) :: (consume rest end_ txt).1,
     (consume rest end_ txt).2).
Proof. simpl. intros ->. by destruct (consume rest end_ txt). Qed.

Lemma consume_set event rest end_ txt s :
  sets_response event = true -> first_text event = Some s ->
  consume (event :: rest) end_ txt = consume rest end_ (strip s).
Proof.
  unfold sets_response, first_text. simpl.
  destruct (get_function_calls event); [|done].
  destruct (is_final_response event); [|done].
  destruct (has_parts event) as [[p ps]|]; [|done].
  by intros _ ->.
Qed.

Lemma consume_pass event rest end_ txt :
  sets_response event = false ->
  (consume (event :: rest) end_ txt).2 = (consume rest end_ txt).2.
Proof.
  unfold sets_response. simpl.
  destruct (get_function_calls event).
  - destruct (is_final_response event); [|done].
    destruct (has_parts event) as [[p ps]|]; [|done].
    intros H. rewrite andb_true_l in H.
    apply bool_decide_eq_false in H. destruct H. eauto.
  - intros _. by destruct (consume rest end_ txt).
Qed.

Lemma consume_no_response events txt :
  Forall (fun e => sets_response e = false) events ->
  (consume events None txt).2 = Return txt.
Proof.
  induction 1 as [|e es He _ IH]; [done|]. by rewrite consume_pass.
Qed.

Lemma consume_no_response_end events end_ txt :
  Forall (fun e => sets_response e = false) events ->
  (consume events end_ txt).2
    = match end_ with None => Return txt | Some e => Raise e end.
Proof.
  induction 1 as [|e es He _ IH]; [by destruct end_|]. by rewrite consume_pass.
Qed.

Lemma consume_prefix pre txt :
  Forall (fun e => handling_raises e = false) pre ->
  exists txt', forall rest end_,
    (consume (pre ++ rest) end_ txt).2 = (consume rest end_ txt').2.
Proof.
  intros Hpre. revert txt.
  induction Hpre as [|e es He _ IH]; intros txt; [by exists txt|].
  destruct (sets_response e) eqn:Hs.
  - unfold handling_raises in He. rewrite Hs in He. simpl in He.
    apply bool_decide_eq_false in He.
    destruct (first_text e) as [s|] eqn:Ht; [|done].
    destruct (IH (strip s)) as [txt' Htxt']. exists txt'. intros rest end_.
    simpl app. by rewrite (consume_set _ _ _ _ s).
  - destruct (IH txt) as [txt' Htxt']. exists txt'. intros rest end_.
    simpl app. by rewrite consume_pass.
Qed.

Lemma not_final_no_response e : is_final_response e = false -> sets_response e = false.
Proof. unfold sets_response. intros ->. by destruct (get_function_calls e). Qed.

Lemma not_final_no_raise e : is_final_response e = false -> handling_raises e = false.
Proof. intros He. unfold handling_raises. by rewrite not_final_no_response. Qed.

Lemma consume_prints events end_ txt :
  Forall (fun a => exists s e, a = Print s e) (consume events end_ txt).1.
Proof.
  revert txt. induction events as [|e es IH]; intros txt; simpl.
  - destruct end_; constructor.
  - destruct (get_function_calls e).
    + destruct (is_final_response e); [|apply IH].
      destruct (has_parts e) as [[p ps]|]; [|apply IH].
      destruct (text p); [apply IH|constructor].
    + specialize (IH txt). destruct (consume es end_ txt). simpl in *.
      constructor; [unfold print; eauto|done].
Qed.

Lemma call_agent_eq query runner :
  call_agent query runner =
    (RunAsync USER_ID_OPENAPI SESSION_ID_OPENAPI (new_message query)
       :: (consume (yielded (turn_stream query runner))
                   (ending (turn_stream query runner)) fallback_text).1,
     (run_async runner USER_ID_OPENAPI SESSION_ID_OPENAPI (new_message query)).2,
     catch_turn (consume (yielded (turn_stream query runner))
                         (ending (turn_stream query runner)) fallback_text).2).
Proof.
  unfold call_agent, turn_stream.
  destruct (run_async _ _ _ _) as [s runner']. simpl.
  by destruct (consume _ _ _).
Qed.

Lemma consume_stream_raises events e txt :
  Forall (fun ev => handling_raises ev = false) events ->
  (consume events (Some e) txt).2 = Raise e.
Proof.
  intros H. destruct (consume_prefix events txt H) as [txt' Htxt'].
  specialize (Htxt' [] (Some e)). rewrite app_nil_r in Htxt'. by rewrite Htxt'.
Qed.

(** ** Facts about the loop *)

Lemma iteration_turn runner l response :
  lower unicode_lower (strip l) ∉ exit_phrases -> strip l <> [] ->
  (call_agent (strip l) runner).2 = Return response ->
  iteration runner (Line l) =
    (Input input_prompt :: Print processing_notice []
       :: (call_agent (strip l) runner).1.1
       ++ [print ([13] ++ py "🤖 Agente: " ++ response)],
     (call_agent (strip l) runner).1.2, Continue).
Proof.
  intros Hexit Hne Hr. unfold iteration.
  rewrite bool_decide_false by done.
  destruct (strip l) as [|c r] eqn:Hl; [done|]. simpl falsy. cbv iota.
  destruct (call_agent (c :: r) runner) as [[t runner'] res]. simpl in *.
  by rewrite Hr.
Qed.

Lemma loop_continue runner inp rest t runner' :
  iteration runner inp = (t, runner', Continue) ->
  loop runner (inp :: rest) = (t ++ (loop runner' rest).1, (loop runner' rest).2).
Proof. simpl. intros ->. by destruct (loop runner' rest). Qed.

Lemma loop_break runner inp rest t runner' :
  iteration runner inp = (t, runner', Break) ->
  loop runner (inp :: rest) = (t, Exiting).
Proof. simpl. by intros ->. Qed.

Lemma iteration_shows_prompt runner inp :
  exists t, (iteration runner inp).1.1 = Input input_prompt :: t.
Proof.
  destruct inp as [l|e]; simpl.
  - destruct (bool_decide _); [by eexists|].
    destruct (falsy _); [by eexists|].
    destruct (call_agent _ _) as [[t runner'] [response|e]]; [by eexists|].
    destruct (loop_handlers e). by eexists.
  - destruct (loop_handlers e). by eexists.
Qed.

Lemma loop_shows_prompt runner script :
  exists t, (loop runner script).1 = Input input_prompt :: t.
Proof.
  destruct script as [|inp rest]; simpl; [by eexists|].
  destruct (iteration_shows_prompt runner inp) as [t Ht].
  destruct (iteration runner inp) as [[ti runner'] c]. simpl in Ht. subst ti.
  destruct c; [|by eexists..].
  destruct (loop runner' rest). by eexists.
Qed.

Lemma call_agent_last_response query runner pre e post s :
  yielded (turn_stream query runner) = pre ++ e :: post ->
  ending (turn_stream query runner) = None ->
  Forall (fun ev => handling_raises ev = false) pre ->
  sets_response e = true ->
  first_text e = Some s ->
  Forall (fun ev => sets_response ev = false) post ->
  (call_agent query runner).2 = Return (strip s).
Proof.
  intros Hy He Hpre Hset Htext Hpost.
  rewrite call_agent_eq. simpl. rewrite Hy, He.
  destruct (consume_prefix pre fallback_text Hpre) as [txt' Htxt'].
  rewrite Htxt', (consume_set _ _ _ _ s) by done.
  by rewrite consume_no_response.
Qed.

Lemma iteration_never_propagates_interrupt runner inp :
  (iteration runner inp).2 <> Propagate KeyboardInterrupt.
Proof.
  assert (Hh : forall e, (loop_handlers e).2 <> Propagate KeyboardInterrupt)
    by (intros [cls msg| |cls msg]; done).
  destruct inp as [l|e]; simpl.
  - destruct (bool_decide _); [done|]. destruct (falsy _); [done|].
    destruct (call_agent _ _) as [[t runner'] [response|e]]; [done|].
    specialize (Hh e). by destruct (loop_handlers e).
  - specialize (Hh e). by destruct (loop_handlers e).
Qed.

Lemma loop_never_raises_interrupt script :
  forall runner, (loop runner script).2 <> Raised KeyboardInterrupt.
Proof.
  induction script as [|inp rest IH]; intros runner; simpl; [done|].
  pose proof (iteration_never_propagates_interrupt runner inp) as Hi.
  destruct (iteration runner inp) as [[t runner'] c]. simpl in Hi.
  destruct c as [| |e]; [|done|by intros [= ->]].
  specialize (IH runner'). by destruct (loop runner' rest).
Qed.

Lemma letter_up_to_case c p :
  97 <= p <= 122 -> c = p \/ c = ascii_upper p ->
  isspace c = false /\ is_ascii c = true /\ ascii_lower c = p.
Proof.
  intros Hp Hc.
  assert (Hu : ascii_upper p = p - 32)
    by (unfold ascii_upper; decide_comparisons; done).
  rewrite Hu in Hc. clear Hu.
  unfold isspace, is_ascii, ascii_lower.
  destruct Hc as [-> | ->]; decide_comparisons; simpl; repeat split; lia.
Qed.

Lemma exit_phrases_lower_case phrase :
  phrase ∈ exit_phrases -> Forall (fun p => 97 <= p <= 122) phrase.
Proof.
  intros H. apply list_elem_of_In in H. vm_compute in H.
  repeat (destruct H as [<-|H]; [repeat constructor; lia|]). destruct H.
Qed.

Lemma matches_lower_case line phrase :
  Forall (fun p => 97 <= p <= 122) phrase ->
  matches_ignoring_case line phrase ->
  Forall (fun c => isspace c = false) line
  /\ forallb is_ascii line = true
  /\ map ascii_lower line = phrase.
Proof.
  intros Hp Hm. induction Hm as [|c p line phrase Hc _ IH]; [done|].
  apply Forall_cons in Hp as [Hp Hps].
  destruct (letter_up_to_case c p Hp Hc) as (Hs & Ha & Hl).
  destruct (IH Hps) as (IHs & IHa & IHl).
  simpl. rewrite Ha, Hl, IHa, IHl. by repeat split; [constructor|..].
Qed.

Lemma exit_phrase_recognised line phrase :
  phrase ∈ exit_phrases -> matches_ignoring_case line phrase ->
  lower unicode_lower (strip line) ∈ exit_phrases.
Proof.
  intros Hin Hm.
  destruct (matches_lower_case line phrase (exit_phrases_lower_case _ Hin) Hm)
    as (Hs & Ha & Hl).
  by rewrite no_space_strip_id, lower_ascii, Hl.
Qed.

Lemma loop_action_print s e : loop_action (Print s e).
Proof. done. Qed.

Lemma loop_handlers_actions e : Forall loop_action (loop_handlers e).1.
Proof. destruct e; simpl; repeat constructor. Qed.

Lemma call_agent_actions query runner :
  Forall loop_action (call_agent query runner).1.1.
Proof.
  rewrite call_agent_eq. simpl. constructor; [done|].
  eapply Forall_impl; [apply consume_prints|].
  intros a (s & e & ->). apply loop_action_print.
Qed.

Lemma iteration_actions runner inp :
  Forall loop_action (iteration runner inp).1.1.
Proof.
  destruct inp as [l|e]; simpl.
  - destruct (bool_decide _); [repeat constructor|].
    destruct (falsy _); [repeat constructor|].
    pose proof (call_agent_actions (strip l) runner) as Hc.
    destruct (call_agent _ _) as [[t runner'] [response|e]]; simpl in *.
    + repeat (constructor; [done|]). apply Forall_app. split; [done|].
      repeat constructor.
    + pose proof (loop_handlers_actions e) as Hh.
      destruct (loop_handlers e). simpl in *.
      repeat (constructor; [done|]). by apply Forall_app.
  - pose proof (loop_handlers_actions e) as Hh.
    destruct (loop_handlers e). simpl in *. by constructor.
Qed.

Lemma loop_actions script :
  forall runner, Forall loop_action (loop runner script).1.
Proof.
  induction script as [|inp rest IH]; intros runner; simpl; [repeat constructor|].
  pose proof (iteration_actions runner inp) as Hi.
  destruct (iteration runner inp) as [[t runner'] c]. simpl in Hi.
  destruct c; [|done..].
  specialize (IH runner'). destruct (loop runner' rest). simpl in *.
  by apply Forall_app.
Qed.

(** The terminal creates the session once, after the banner, and everything
    else it does is an action of the loop. *)
Lemma interactive_terminal_actions script :
  exists t,
    (interactive_terminal script).1
      = banner ++ CreateSession APP_NAME_OPENAPI USER_ID_OPENAPI SESSION_ID_OPENAPI :: t
    /\ Forall loop_action t.
Proof.
  unfold interactive_terminal, setup_session_and_runner.
  assert (Hh : forall st, Forall loop_action (startup_handler st).1)
    by (intros [| |[cls msg| |cls msg]]; simpl; repeat constructor).
  destruct create_session_error as [e|].
  - specialize (Hh (Raised e)). destruct (startup_handler (Raised e)) as [th st'].
    exists th. split; [reflexivity|exact Hh].
  - pose proof (loop_actions script runner_openapi) as Hl.
    destruct (loop runner_openapi script) as [tl st]. simpl in Hl.
    specialize (Hh st). destruct (startup_handler st) as [th st'].
    eexists. split; [reflexivity|]. simpl in *.
    repeat (constructor; [done|]). by apply Forall_app.
Qed.

Lemma filter_none {A} (f : A -> bool) (l : list A) :
  Forall (fun a => f a = false) l -> filter f l = [].
Proof.
  induction 1 as [|a l Ha _ IH]; [done|].
  rewrite filter_cons, Ha. simpl. exact IH.
Qed.

Lemma whitespace_only_rev s : whitespace_only s -> whitespace_only (rev s).
Proof.
  unfold whitespace_only. rewrite !Forall_forall. intros H c Hc.
  apply H. by apply list_elem_of_In, in_rev, list_elem_of_In.
Qed.

Lemma lstrip_decompose s :
  exists w, s = w ++ lstrip s /\ whitespace_only w.
Proof.
  induction s as [|c r (w & Hw & Hws)]; simpl.
  - exists []. by split; [|constructor].
  - destruct (isspace c) eqn:Hc.
    + exists (c :: w). split; [simpl; by rewrite <- Hw|by constructor].
    + exists []. by split; [|constructor].
Qed.

(** [strip s] is [s] without a run of whitespace at each end. *)
Lemma strip_decompose s :
  exists before after,
    s = before ++ strip s ++ after
    /\ whitespace_only before /\ whitespace_only after.
Proof.
  destruct (lstrip_decompose s) as (a & Ha & Hwa).
  destruct (lstrip_decompose (rev (lstrip s))) as (w & Hw & Hww).
  exists a, (rev w). split; [|split; [done|by apply whitespace_only_rev]].
  unfold strip, rstrip. rewrite <- rev_app_distr, <- Hw, rev_involutive.
  exact Ha.
Qed.

(** ** The claims of the specification *)

(** C1 (as amended). For every turn whose event sequence is consumed without
    raising, if the last event that the final-response branch takes (marked
    final, requesting no tool invocation, with a non-empty list of parts)
    carries text in its first part, then that text, stripped of surrounding
    whitespace, is the output [call_agent] returns. *)
Theorem C1_last_final_text_stripped_is_output query runner pre e post s :
  yielded (turn_stream query runner) = pre ++ e :: post ->
  ending (turn_stream query runner) = None ->
  Forall (fun ev => handling_raises ev = false) pre ->
  sets_response e = true ->
  first_text e = Some s ->
  Forall (fun ev => sets_response ev = false) post ->
  (call_agent query runner).2 = Return (strip s).
Proof.
  intros Hy He Hpre Hset Htext Hpost.
  by apply (call_agent_last_response query runner pre e post s).
Qed.

(** C2. For every turn whose event sequence contains no event marked as a
    final response, the output of [call_agent], once the sequence is consumed
    to its end, is the fixed fallback sentence; and whatever [call_agent]
    returns for such a turn, it is never the empty string. *)
Theorem C2_no_final_event_gives_fallback query runner :
  Forall (fun ev => is_final_response ev = false) (yielded (turn_stream query runner)) ->
  (ending (turn_stream query runner) = None ->
   (call_agent query runner).2 = Return fallback_text)
  /\ (forall out, (call_agent query runner).2 = Return out -> out <> []).
Proof.
  intros Hnf.
  assert (Hc := consume_no_response_end (yielded (turn_stream query runner))
                  (ending (turn_stream query runner)) fallback_text
                  (Forall_impl _ _ _ Hnf not_final_no_response)).
  rewrite call_agent_eq. simpl. rewrite Hc. split.
  - by intros ->.
  - intros out. destruct (ending (turn_stream query runner)) as [[cls msg| |cls msg]|];
      simpl; intros [= <-]; [discriminate|apply fallback_text_not_empty].
Qed.

(** C10. The text of the final response is stripped of leading and trailing
    whitespace before it is returned: for a turn, consumed to its end, whose
    only final event is a text event (it requests no tool invocation and its
    first part holds the text [s]), [call_agent] returns [strip s]; this
    output is [s] with a run of whitespace taken off each end and nothing
    else changed, and it neither starts nor ends with whitespace; when [s] is
    whitespace only the output is the empty string, which is not the
    fallback sentence. *)
Theorem C10_final_text_is_stripped query runner pre e post s :
  yielded (turn_stream query runner) = pre ++ e :: post ->
  ending (turn_stream query runner) = None ->
  Forall (fun ev => is_final_response ev = false) (pre ++ post) ->
  is_final_response e = true ->
  get_function_calls e = [] ->
  first_text e = Some s ->
  (exists out before after,
      (call_agent query runner).2 = Return out
      /\ s = before ++ out ++ after
      /\ whitespace_only before /\ whitespace_only after
      /\ starts_with_space out = false
      /\ ends_with_space out = false)
  /\ (call_agent query runner).2 = Return (strip s)
  /\ (whitespace_only s ->
      (call_agent query runner).2 = Return [] /\ [] <> fallback_text).
Proof.
  intros Hy He Hothers Hfin Hcalls Htext.
  apply Forall_app in Hothers as [Hpre Hpost].
  assert (Hout : (call_agent query runner).2 = Return (strip s)).
  { apply (call_agent_last_response query runner pre e post s); try done.
    - eapply Forall_impl; [exact Hpre|]. apply not_final_no_raise.
    - unfold sets_response, first_text in *. rewrite Hcalls, Hfin.
      destruct (has_parts e); [|done]. rewrite bool_decide_true by eauto. done.
    - eapply Forall_impl; [exact Hpost|]. apply not_final_no_response. }
  split; [|split; [done|]].
  - destruct (strip_decompose s) as (before & after & Hs & Hb & Ha).
    exists (strip s), before, after.
    repeat split; [done..|apply strip_no_lead|apply strip_no_trail].
  - intros Hws.
    split; [|by intros H; symmetry in H; apply fallback_text_not_empty in H].
    by rewrite Hout, strip_whitespace.
Qed.

(** C3. For every turn whose event consumption raises an exception (an
    instance of [Exception], raised by the stream after any number of events
    or by the handling of an event), the exception is caught within the turn:
    [call_agent] returns the fixed error marker followed by the exception's
    message, the loop displays it, and goes on to the next prompt instead of
    ending. *)
Theorem C3_turn_error_is_caught_and_loop_continues runner l cls msg rest :
  lower unicode_lower (strip l) ∉ exit_phrases ->
  strip l <> [] ->
  (consume (yielded (turn_stream (strip l) runner))
           (ending (turn_stream (strip l) runner)) fallback_text).2
    = Raise (Exception cls msg) ->
  (call_agent (strip l) runner).2 = Return (error_marker ++ msg)
  /\ exists t runner' t',
      iteration runner (Line l) =
        (t ++ [print ([13] ++ py "🤖 Agente: " ++ error_marker ++ msg)],
         runner', Continue)
      /\ loop runner (Line l :: rest) =
        ((t ++ [print ([13] ++ py "🤖 Agente: " ++ error_marker ++ msg)])
           ++ Input input_prompt :: t',
         (loop runner' rest).2).
Proof.
  intros Hexit Hne Hraise.
  assert (Hout : (call_agent (strip l) runner).2 = Return (error_marker ++ msg))
    by (rewrite call_agent_eq; simpl; by rewrite Hraise).
  split; [done|].
  pose proof (iteration_turn runner l _ Hexit Hne Hout) as Hit.
  destruct (loop_shows_prompt (call_agent (strip l) runner).1.2 rest) as [t' Ht'].
  eexists (Input input_prompt :: Print processing_notice []
             :: (call_agent (strip l) runner).1.1), _, t'.
  split; [exact Hit|].
  rewrite (loop_continue _ _ _ _ _ Hit). by rewrite Ht'.
Qed.

(** C4. For every input line that is one of the exit phrases up to the case
    of its letters, the loop prints the farewell and leaves through [break]
    (state Exiting); nothing is dispatched to the runner. *)
Theorem C4_exit_phrase_ends_loop_without_dispatch runner line phrase rest :
  phrase ∈ exit_phrases ->
  matches_ignoring_case line phrase ->
  iteration runner (Line line) = ([Input input_prompt; print farewell], runner, Break)
  /\ loop runner (Line line :: rest) = ([Input input_prompt; print farewell], Exiting)
  /\ filter is_dispatch (loop runner (Line line :: rest)).1 = [].
Proof.
  intros Hin Hm.
  assert (Hit : iteration runner (Line line)
                = ([Input input_prompt; print farewell], runner, Break)).
  { unfold iteration. rewrite bool_decide_true; [done|].
    by apply (exit_phrase_recognised line phrase). }
  split; [done|]. rewrite (loop_break _ _ _ _ _ Hit). done.
Qed.

(** C5. For every empty or whitespace-only input line nothing is dispatched:
    the loop prints the warning and prompts again. No other input is
    rejected: a line that, stripped, is neither empty nor an exit phrase is
    dispatched to the runner as it is. *)
Theorem C5_blank_line_warns_and_reprompts runner line rest :
  whitespace_only line ->
  iteration runner (Line line)
    = ([Input input_prompt; print empty_warning], runner, Continue)
  /\ (exists t, loop runner (Line line :: rest)
        = ([Input input_prompt; print empty_warning] ++ Input input_prompt :: t,
           (loop runner rest).2))
  /\ (forall other : pystr,
        strip other <> [] ->
        lower unicode_lower (strip other) ∉ exit_phrases ->
        exists t, (iteration runner (Line other)).1.1
          = Input input_prompt :: Print processing_notice []
              :: RunAsync USER_ID_OPENAPI SESSION_ID_OPENAPI (new_message (strip other))
              :: t).
Proof.
  intros Hws.
  assert (Hit : iteration runner (Line line)
                = ([Input input_prompt; print empty_warning], runner, Continue)).
  { unfold iteration. rewrite strip_whitespace by done.
    rewrite bool_decide_false; [done|]. apply empty_not_exit_phrase. }
  split; [done|]. split.
  - destruct (loop_shows_prompt runner rest) as [t Ht]. exists t.
    rewrite (loop_continue _ _ _ _ _ Hit). by rewrite Ht.
  - intros other Hne Hexit. unfold iteration.
    rewrite bool_decide_false by done.
    destruct (strip other) as [|c r] eqn:Ho; [done|]. simpl falsy. cbv iota.
    rewrite call_agent_eq.
    destruct (catch_turn _) as [response|e]; [by eexists|].
    destruct (loop_handlers e). by eexists.
Qed.

(** C6. One user identifier and one session identifier serve the whole
    run: the session identifier is drawn exactly once when the start-up gets
    past the credential check (and never otherwise), the session is created
    at most once, and the creation of the session and every dispatch to the
    runner, in every turn, name that user and that session. *)
Theorem C6_one_user_and_session_per_run environ script :
  Forall (references USER_ID_OPENAPI SESSION_ID_OPENAPI) (main environ script).1
  /\ length (filter is_uuid4 (main environ script).1)
     = (if environ_get_truthy environ (py "GOOGLE_API_KEY") then 1%nat else 0%nat)
  /\ (length (filter is_create_session (main environ script).1) <= 1)%nat.
Proof.
  unfold main.
  destruct (environ_get_truthy environ (py "GOOGLE_API_KEY")); simpl negb; cbv iota;
    [|by repeat split; [constructor|simpl; lia]].
  destruct toolset_error as [e|];
    [by repeat split; [repeat constructor|simpl; lia]|].
  destruct (interactive_terminal_actions script) as (t & Ht & Hloop).
  destruct (interactive_terminal script) as [ti st]. simpl in Ht. subst ti.
  assert (Hh : Forall loop_action (main_handler st).1)
    by (destruct st as [| |[cls msg| |cls msg]]; simpl; repeat constructor).
  destruct (main_handler st) as [th st']. simpl in Hh.
  assert (Hall : Forall loop_action (t ++ th)) by by apply Forall_app.
  cbn [fst app].
  repeat split.
  - repeat (constructor; [done|]).
    eapply Forall_impl; [exact Hall|]. by intros a [Ha _].
  - rewrite !filter_cons. simpl. rewrite filter_none; [done|].
    eapply Forall_impl; [exact Hall|]. by intros a (_ & Ha & _).
  - rewrite !filter_cons. simpl. rewrite filter_none; [simpl; lia|].
    eapply Forall_impl; [exact Hall|]. by intros a (_ & _ & Ha).
Qed.

(** C7. If the credential variable is absent from the environment, the
    module raises [ValueError] with its descriptive message before anything
    else is done: nothing is printed (no banner), nothing is built, no
    session is created and the loop is never entered. *)
Theorem C7_missing_credential_is_fatal_before_anything environ script :
  environ !! py "GOOGLE_API_KEY" = None ->
  main environ script = ([], Raised (Exception (py "ValueError") credential_message))
  /\ credential_message <> [].
Proof.
  intros Hkey. unfold main, environ_get_truthy. rewrite Hkey. done.
Qed.

(** C8. A turn whose event sequence is one event requesting the tool
    invocation [listPets] followed by a final-response event with the text
    "Aqui estão os pets": the terminal shows the progress notice naming
    [listPets], then displays "Aqui estão os pets"; the notice changes
    nothing else, the output being what the final event alone gives. *)
Theorem C8_list_pets_scenario runner l e1 e2 calls :
  lower unicode_lower (strip l) ∉ exit_phrases ->
  strip l <> [] ->
  yielded (turn_stream (strip l) runner) = [e1; e2] ->
  ending (turn_stream (strip l) runner) = None ->
  get_function_calls e1 = {| name := Some (py "listPets") |} :: calls ->
  sets_response e2 = true ->
  first_text e2 = Some (py "Aqui estão os pets") ->
  (exists runner',
     iteration runner (Line l) =
       ([ Input input_prompt;
          Print processing_notice [];
          RunAsync USER_ID_OPENAPI SESSION_ID_OPENAPI (new_message (strip l));
          print (py "🔧 Executando: listPets");
          print ([13] ++ py "🤖 Agente: Aqui estão os pets") ],
        runner', Continue))
  /\ (consume [e1; e2] None fallback_text).2 = (consume [e2] None fallback_text).2.
Proof.
  intros Hexit Hne Hy He Hcalls Hset Htext.
  assert (Hc : consume [e1; e2] None fallback_text
               = ([print (py "🔧 Executando: listPets")],
                  Return (py "Aqui estão os pets"))).
  { rewrite (consume_call _ _ _ _ _ _ Hcalls).
    by rewrite (consume_set _ _ _ _ _ Hset Htext). }
  split.
  - eexists. rewrite (iteration_turn runner l (py "Aqui estão os pets")); try done.
    + rewrite call_agent_eq. simpl. rewrite Hy, He, Hc. done.
    + rewrite call_agent_eq. simpl. by rewrite Hy, He, Hc.
  - rewrite Hc. by rewrite (consume_set _ _ _ _ _ Hset Htext).
Qed.

(** X17. When [input] itself raises [KeyboardInterrupt], the loop is left
    through [break] with the farewell for interrupts, whatever input would
    follow; and no run of the loop ends by letting a [KeyboardInterrupt]
    out. Whether an interrupt signal makes [input] raise is the
    interpreter's business and is not part of this statement. *)
Theorem keyboard_interrupt_from_input_ends_loop runner rest :
  iteration runner (InputRaises KeyboardInterrupt)
    = ([Input input_prompt; print interrupt_farewell], runner, Break)
  /\ loop runner (InputRaises KeyboardInterrupt :: rest)
     = ([Input input_prompt; print interrupt_farewell], Exiting)
  /\ (forall script, (loop runner script).2 <> Raised KeyboardInterrupt).
Proof.
  split; [done|]. split; [done|].
  intros script. apply loop_never_raises_interrupt.
Qed.

(** ** Further properties of the script *)

Lemma iteration_turn_raises runner l e :
  lower unicode_lower (strip l) ∉ exit_phrases -> strip l <> [] ->
  (call_agent (strip l) runner).2 = Raise e ->
  iteration runner (Line l) =
    (Input input_prompt :: Print processing_notice []
       :: (call_agent (strip l) runner).1.1 ++ (loop_handlers e).1,
     (call_agent (strip l) runner).1.2, (loop_handlers e).2).
Proof.
  intros Hexit Hne Hr. unfold iteration.
  rewrite bool_decide_false by done.
  destruct (strip l) as [|c r] eqn:Hl; [done|]. simpl falsy. cbv iota.
  destruct (call_agent (c :: r) runner) as [[t runner'] res]. simpl in *.
  rewrite Hr. by destruct (loop_handlers e).
Qed.

Lemma handling_raises_intro e p ps :
  get_function_calls e = [] -> is_final_response e = true ->
  has_parts e = Some (p, ps) -> text p = None -> handling_raises e = true.
Proof.
  unfold handling_raises, sets_response, first_text. intros -> -> -> ->.
  rewrite !bool_decide_true; eauto.
Qed.

(** X1. [call_agent] never lets an [Exception] out: whatever the runner's
    stream does, the call returns a string or raises something that is not
    an instance of [Exception]. *)
Theorem call_agent_never_raises_exception query runner cls msg :
  (call_agent query runner).2 <> Raise (Exception cls msg).
Proof.
  rewrite call_agent_eq. simpl.
  destruct (consume _ _ _) as [t [out|[c m| |c m]]]; simpl; discriminate.
Qed.

(** X2. An interrupt raised while the events of a turn are consumed is not
    caught by [call_agent]; the handler of the loop catches it, prints the
    farewell for interrupts and leaves the loop: no response is displayed
    and no further input is read. *)
Theorem interrupt_during_turn_ends_loop runner l rest :
  lower unicode_lower (strip l) ∉ exit_phrases ->
  strip l <> [] ->
  (consume (yielded (turn_stream (strip l) runner))
           (ending (turn_stream (strip l) runner)) fallback_text).2
    = Raise KeyboardInterrupt ->
  (call_agent (strip l) runner).2 = Raise KeyboardInterrupt
  /\ loop runner (Line l :: rest) =
      (Input input_prompt :: Print processing_notice []
         :: (call_agent (strip l) runner).1.1 ++ [print interrupt_farewell],
       Exiting).
Proof.
  intros Hexit Hne Hraise.
  assert (Hout : (call_agent (strip l) runner).2 = Raise KeyboardInterrupt)
    by (rewrite call_agent_eq; simpl; by rewrite Hraise).
  split; [done|].
  pose proof (iteration_turn_raises runner l _ Hexit Hne Hout) as Hit.
  exact (loop_break _ _ rest _ _ Hit).
Qed.

(** X3. The notices of a turn: as long as no event's handling raises,
    [call_agent] prints one notice for each event that requests a tool
    invocation, naming the first invocation of that event, in the order of
    the events, and prints nothing else, however the stream ends. *)
Theorem one_notice_per_tool_event events end_ txt :
  Forall (fun ev => handling_raises ev = false) events ->
  (consume events end_ txt).1 = omap tool_notice events.
Proof.
  intros H. revert txt. induction H as [|e es He _ IH]; intros txt.
  - simpl. by destruct end_.
  - simpl. unfold tool_notice at 1.
    destruct (get_function_calls e) as [|call calls] eqn:Hc.
    + destruct (is_final_response e) eqn:Hf; [|apply IH].
      destruct (has_parts e) as [[p ps]|] eqn:Hp; [|apply IH].
      destruct (text p) eqn:Ht; [apply IH|].
      by rewrite (handling_raises_intro e p ps) in He.
    + specialize (IH txt). destruct (consume es end_ txt). simpl in *.
      by rewrite IH.
Qed.

(** X4. Events that request a tool invocation never change what the turn
    returns: dropping them from the sequence leaves the outcome of the
    consumption (the text, or the exception) the same. *)
Theorem tool_events_do_not_change_outcome events end_ txt :
  (consume events end_ txt).2 = (consume (filter no_calls events) end_ txt).2.
Proof.
  revert txt. induction events as [|e es IH]; intros txt; [done|].
  destruct (no_calls e) eqn:Hn.
  - rewrite filter_cons_True by (rewrite Hn; exact I).
    unfold no_calls in Hn. simpl.
    destruct (get_function_calls e) as [|call calls]; [|done].
    destruct (is_final_response e); [|apply IH].
    destruct (has_parts e) as [[p ps]|]; [|apply IH].
    destruct (text p); [apply IH|done].
  - rewrite filter_cons_False by (rewrite Hn; exact id).
    unfold no_calls in Hn.
    destruct (get_function_calls e) as [|call calls] eqn:Hc; [done|].
    rewrite (consume_call _ _ _ _ _ _ Hc). simpl. apply IH.
Qed.

(** X5. A final event without tool invocation whose first part has no text
    turns the turn into an error: [call_agent] returns the error marker
    followed by the message of the [AttributeError], whatever events follow
    and however the stream ends; the events after it are not consumed (their
    notices are not printed). *)
Theorem final_event_without_text_is_an_error query runner pre e post :
  yielded (turn_stream query runner) = pre ++ e :: post ->
  Forall (fun ev => handling_raises ev = false) pre ->
  sets_response e = true ->
  first_text e = None ->
  call_agent query runner =
    (RunAsync USER_ID_OPENAPI SESSION_ID_OPENAPI (new_message query)
       :: omap tool_notice pre,
     (run_async runner USER_ID_OPENAPI SESSION_ID_OPENAPI (new_message query)).2,
     Return (error_marker ++ py "'NoneType' object has no attribute 'strip'")).
Proof.
  intros Hy Hpre Hset Htext.
  rewrite call_agent_eq, Hy.
  assert (Hc : forall txt,
    consume (pre ++ e :: post) (ending (turn_stream query runner)) txt
      = (omap tool_notice pre, Raise strip_of_none)).
  { clear Hy. induction Hpre as [|x xs Hx _ IH]; intros txt.
    - simpl. unfold sets_response, first_text in *.
      destruct (get_function_calls e); [|done].
      destruct (is_final_response e); [|done].
      destruct (has_parts e) as [[p ps]|]; [|done].
      by rewrite Htext.
    - simpl. unfold tool_notice at 1.
      destruct (get_function_calls x) as [|call calls] eqn:Hc.
      + destruct (is_final_response x) eqn:Hf; [|apply IH].
        destruct (has_parts x) as [[p ps]|] eqn:Hp; [|apply IH].
        destruct (text p) eqn:Ht; [apply IH|].
        by rewrite (handling_raises_intro x p ps) in Hx.
      + by rewrite IH. }
  by rewrite Hc.
Qed.

Lemma consume_outcome events end_ txt e :
  (consume events end_ txt).2 = Raise e -> e = strip_of_none \/ end_ = Some e.
Proof.
  revert txt. induction events as [|ev evs IH]; intros txt; simpl.
  - destruct end_; [intros [= ->]; by right|done].
  - destruct (get_function_calls ev).
    + destruct (is_final_response ev); [|apply IH].
      destruct (has_parts ev) as [[p ps]|]; [|apply IH].
      destruct (text p); [apply IH|]. intros [= <-]. by left.
    + specialize (IH txt). by destruct (consume evs end_ txt).
Qed.

Lemma call_agent_returns query runner :
  runner_raises_only_exceptions ->
  exists response, (call_agent query runner).2 = Return response.
Proof.
  intros Hrun. rewrite call_agent_eq. simpl.
  destruct (consume _ _ _) as [t [out|e]] eqn:Hc; simpl; [by eexists|].
  pose proof (consume_outcome _ _ _ e (f_equal snd Hc)) as [->|He];
    [by eexists|].
  specialize (Hrun runner USER_ID_OPENAPI SESSION_ID_OPENAPI (new_message query)).
  unfold turn_stream in He. rewrite He in Hrun.
  destruct e; [by eexists|done..].
Qed.

Lemma iteration_stays runner inp :
  runner_raises_only_exceptions -> stays_in_loop inp ->
  (iteration runner inp).2 = Continue.
Proof.
  intros Hrun Hin. destruct inp as [l|[cls msg| |cls msg]]; simpl in *; try done.
  rewrite bool_decide_false by done.
  destruct (falsy (strip l)); [done|].
  destruct (call_agent_returns (strip l) runner Hrun) as [response Hr].
  destruct (call_agent (strip l) runner) as [[t runner'] res].
  simpl in Hr. by rewrite Hr.
Qed.

(** X6. Nothing but an exit phrase or an interrupt ends the loop: with a
    runner whose streams raise nothing outside [Exception], as long as every
    line read is something other than an exit phrase and every failure of
    [input] is an ordinary exception (the end of the input among them), the
    loop is still waiting for input. *)
Theorem loop_only_ends_by_exit_or_interrupt script :
  runner_raises_only_exceptions ->
  Forall stays_in_loop script ->
  forall runner, (loop runner script).2 = AwaitingInput.
Proof.
  intros Hrun Hs. induction Hs as [|inp rest Hin _ IH]; intros runner; [done|].
  simpl. pose proof (iteration_stays runner inp Hrun Hin) as Hc.
  destruct (iteration runner inp) as [[t runner'] c]. simpl in Hc. subst c.
  specialize (IH runner'). by destruct (loop runner' rest).
Qed.


(** What one pass through the loop body does, besides printing: it shows
    the prompt, and dispatches at most one message, the stripped line. *)
Lemma iteration_trace_shape runner inp :
  exists t,
    Forall (fun a => exists s e, a = Print s e) t
    /\ ((iteration runner inp).1.1 = Input input_prompt :: t
        \/ (exists l, inp = Line l
             /\ strip l <> []
             /\ (lower unicode_lower (strip l) ∉ exit_phrases)
             /\ (iteration runner inp).1.1 =
                  Input input_prompt :: Print processing_notice []
                    :: RunAsync USER_ID_OPENAPI SESSION_ID_OPENAPI
                         (new_message (strip l)) :: t)).
Proof.
  assert (Hh : forall e, Forall (fun a => exists s e, a = Print s e) (loop_handlers e).1)
    by (intros [cls msg| |cls msg]; simpl; repeat constructor; unfold print; eauto).
  destruct inp as [l|e]; simpl.
  - destruct (bool_decide _) eqn:Hexit.
    { eexists. split; [|by left]. repeat constructor. unfold print. eauto. }
    apply bool_decide_eq_false in Hexit.
    destruct (falsy (strip l)) eqn:Hf.
    { eexists. split; [|by left]. repeat constructor. unfold print. eauto. }
    assert (Hne : strip l <> []) by (by destruct (strip l)).
    rewrite call_agent_eq.
    pose proof (consume_prints (yielded (turn_stream (strip l) runner))
                  (ending (turn_stream (strip l) runner)) fallback_text) as Hp.
    destruct (catch_turn _) as [response|e].
    + eexists. split; [|right; exists l; repeat split; try done].
      apply Forall_app. split; [exact Hp|]. repeat constructor. unfold print. eauto.
    + specialize (Hh e). destruct (loop_handlers e) as [th c]. simpl in Hh.
      eexists. split; [|right; exists l; repeat split; try done].
      by apply Forall_app.
  - specialize (Hh e). destruct (loop_handlers e) as [th c]. simpl in Hh.
    eexists. split; [exact Hh|by left].
Qed.

Lemma prints_are_not_dispatches t :
  Forall (fun a => exists s e, a = Print s e) t -> filter is_dispatch t = [].
Proof.
  intros H. apply filter_none. eapply Forall_impl; [exact H|].
  by intros a (s & e & ->).
Qed.


(** X8. The loop dispatches at most once for each line it reads: the number
    of calls of [run_async] never exceeds the number of outcomes of [input]
    consumed. *)
Theorem at_most_one_dispatch_per_input script :
  forall runner,
    (length (filter is_dispatch (loop runner script).1) <= length script)%nat.
Proof.
  induction script as [|inp rest IH]; intros runner; simpl; [done|].
  assert (Hit : (length (filter is_dispatch (iteration runner inp).1.1) <= 1)%nat).
  { destruct (iteration_trace_shape runner inp) as (t & Ht & [-> | (l & _ & _ & _ & ->)]).
    - rewrite filter_cons_False by exact id.
      rewrite prints_are_not_dispatches by done. simpl. lia.
    - rewrite filter_cons_False, filter_cons_False, filter_cons_True
        by first [exact id | exact I].
      rewrite prints_are_not_dispatches by done. simpl. lia. }
  destruct (iteration runner inp) as [[t runner'] c]. simpl in Hit.
  destruct c; simpl; [|lia..].
  specialize (IH runner'). destruct (loop runner' rest) as [t' st]. simpl in *.
  rewrite filter_app, length_app. lia.
Qed.

Lemma lstrip_app_whitespace a x : whitespace_only a -> lstrip (a ++ x) = lstrip x.
Proof. induction 1 as [|c r Hc _ IH]; simpl; [done|]. by rewrite Hc. Qed.

Lemma strip_padded a c b :
  whitespace_only a -> whitespace_only b ->
  starts_with_space c = false -> ends_with_space c = false ->
  strip (a ++ c ++ b) = c.
Proof.
  intros Ha Hb Hl Ht. unfold strip. rewrite lstrip_app_whitespace by done.
  destruct c as [|x c'].
  - simpl. by rewrite lstrip_whitespace.
  - rewrite lstrip_id by done. unfold rstrip.
    rewrite rev_app_distr, lstrip_app_whitespace by by apply whitespace_only_rev.
    rewrite lstrip_id by done. apply rev_involutive.
Qed.

Lemma no_space_ends s :
  Forall (fun c => isspace c = false) s ->
  starts_with_space s = false /\ ends_with_space s = false.
Proof.
  intros Hs. split.
  - by destruct Hs.
  - unfold ends_with_space.
    assert (Hr : Forall (fun c => isspace c = false) (rev s))
      by (apply Forall_forall; intros c Hc; apply (proj1 (Forall_forall _ _) Hs);
          by apply list_elem_of_In, in_rev, list_elem_of_In).
    by destruct Hr.
Qed.

(** X9. Whitespace around an exit phrase does not matter: a line made of
    whitespace, an exit phrase in any mix of upper and lower case, and
    whitespace again ends the loop with the farewell, nothing being
    dispatched. *)
Theorem padded_exit_phrase_ends_loop runner before core after phrase rest :
  whitespace_only before -> whitespace_only after ->
  phrase ∈ exit_phrases ->
  matches_ignoring_case core phrase ->
  loop runner (Line (before ++ core ++ after) :: rest)
    = ([Input input_prompt; print farewell], Exiting).
Proof.
  intros Hb Ha Hin Hm.
  destruct (matches_lower_case core phrase (exit_phrases_lower_case _ Hin) Hm)
    as (Hs & Hascii & Hl).
  destruct (no_space_ends core Hs) as [Hlead Htrail].
  assert (Hit : iteration runner (Line (before ++ core ++ after))
                = ([Input input_prompt; print farewell], runner, Break)).
  { unfold iteration. rewrite strip_padded by done.
    rewrite bool_decide_true; [done|]. by rewrite lower_ascii, Hl. }
  exact (loop_break _ _ rest _ _ Hit).
Qed.

(** X10. The start-up stops at the credential check exactly when the
    variable is unset or set to the empty string: in these cases and in no
    other the run is the [ValueError] with nothing done before it. *)
Theorem credential_check_rejects_exactly_unset_or_empty environ script :
  main environ script = ([], Raised (Exception (py "ValueError") credential_message))
  <-> (environ !! py "GOOGLE_API_KEY" = None
       \/ environ !! py "GOOGLE_API_KEY" = Some []).
Proof.
  unfold main, environ_get_truthy.
  destruct (environ !! py "GOOGLE_API_KEY") as [[|c v]|]; simpl negb; cbv iota.
  - split; [by right|done].
  - split; [|by intros [|]].
    destruct toolset_error; [by intros [=]|].
    destruct (interactive_terminal script) as [t st].
    destruct (main_handler st). by intros [=].
  - split; [by left|done].
Qed.

(** X11. When creating the session fails with an ordinary exception, the
    terminal prints the banner, reports the failure once and ends normally:
    whatever input is available, none is read and nothing is dispatched. *)
Theorem session_failure_is_reported_and_loop_not_entered environ script cls msg :
  environ_get_truthy environ (py "GOOGLE_API_KEY") = true ->
  toolset_error = None ->
  create_session_error = Some (Exception cls msg) ->
  main environ script =
    ([Uuid4; BuildToolset; BuildAgent AGENT_NAME_OPENAPI GEMINI_MODEL]
       ++ banner
       ++ [CreateSession APP_NAME_OPENAPI USER_ID_OPENAPI SESSION_ID_OPENAPI;
           print (py "❌ Erro ao inicializar o sistema: " ++ msg)],
     Exiting).
Proof.
  intros Hkey Htool Hsession.
  unfold main, interactive_terminal, setup_session_and_runner.
  by rewrite Hkey, Htool, Hsession.
Qed.

(** X12. An interrupt while the session is being created is not caught
    inside [interactive_terminal]; the handler of the [__main__] block
    catches it, prints its own farewell, and the process ends normally
    without entering the loop. *)
Theorem interrupt_during_setup_is_caught_by_main environ script :
  environ_get_truthy environ (py "GOOGLE_API_KEY") = true ->
  toolset_error = None ->
  create_session_error = Some KeyboardInterrupt ->
  (interactive_terminal script).2 = Raised KeyboardInterrupt
  /\ main environ script =
      ([Uuid4; BuildToolset; BuildAgent AGENT_NAME_OPENAPI GEMINI_MODEL]
         ++ banner
         ++ [CreateSession APP_NAME_OPENAPI USER_ID_OPENAPI SESSION_ID_OPENAPI;
             print ([10] ++ py "👋 Programa encerrado.")],
       Exiting).
Proof.
  intros Hkey Htool Hsession.
  unfold main, interactive_terminal, setup_session_and_runner.
  by rewrite Hkey, Htool, Hsession.
Qed.




Lemma loop_propagate runner inp rest t runner' e :
  iteration runner inp = (t, runner', Propagate e) ->
  loop runner (inp :: rest) = (t, Raised e).
Proof. simpl. by intros ->. Qed.

(** X14. An exception outside [Exception] other than the interrupt (a
    [SystemExit], a cancellation) raised while the first turn is consumed
    escapes every handler of the coroutine: [call_agent], the loop and the
    outer handler of [interactive_terminal] all let it through. Nothing is
    printed after the notices of the turn, neither a response nor a farewell
    nor an error line, and [interactive_terminal] ends by raising it. *)
Theorem other_base_exception_escapes_the_terminal l rest cls msg :
  create_session_error = None ->
  lower unicode_lower (strip l) ∉ exit_phrases ->
  strip l <> [] ->
  (consume (yielded (turn_stream (strip l) runner_openapi))
           (ending (turn_stream (strip l) runner_openapi)) fallback_text).2
    = Raise (OtherBaseException cls msg) ->
  interactive_terminal (Line l :: rest) =
    (banner
       ++ [CreateSession APP_NAME_OPENAPI USER_ID_OPENAPI SESSION_ID_OPENAPI;
           print (py "✅ Sistema inicializado com sucesso!");
           print (py "💬 Digite sua mensagem (ou 'sair' para terminar):");
           Input input_prompt;
           Print processing_notice []]
       ++ (call_agent (strip l) runner_openapi).1.1,
     Raised (OtherBaseException cls msg)).
Proof.
  intros Hsession Hexit Hne Hraise.
  assert (Hout : (call_agent (strip l) runner_openapi).2
                 = Raise (OtherBaseException cls msg))
    by (rewrite call_agent_eq; simpl; by rewrite Hraise).
  pose proof (iteration_turn_raises runner_openapi l _ Hexit Hne Hout) as Hit.
  pose proof (loop_propagate _ _ rest _ _ _ Hit) as Hloop.
  unfold interactive_terminal, setup_session_and_runner.
  rewrite Hsession, Hloop. cbn [loop_handlers fst snd startup_handler].
  by rewrite app_nil_r, app_nil_r.
Qed.

End Script.

(** X15. The session identifier is the fixed prefix followed by the value
    drawn: two runs that draw different values use different sessions. *)
Theorem session_id_determines_uuid u1 u2 :
  u1 <> u2 -> SESSION_ID_OPENAPI u1 <> SESSION_ID_OPENAPI u2.
Proof.
  intros Hne Heq. apply Hne. unfold SESSION_ID_OPENAPI in Heq.
  by apply app_inv_head in Heq.
Qed.

(** ** The claims at sample inputs *)

Example py_ascii : py "q" = [113].
Proof. reflexivity. Qed.

Example py_two_bytes : py "não" = [110; 227; 111].
Proof. reflexivity. Qed.

Example py_four_bytes : py "👋" = [128075].
Proof. reflexivity. Qed.

Example strip_example : strip ([32; 9] ++ py "Sair" ++ [13; 10]) = py "Sair".
Proof. reflexivity. Qed.

Lemma sets_response_final_event s : sets_response (final_event s) = true.
Proof. reflexivity. Qed.

Lemma tool_event_no_response tool : sets_response (tool_event tool) = false.
Proof. done. Qed.

Lemma tool_event_no_raise tool : handling_raises (tool_event tool) = false.
Proof. done. Qed.

Lemma not_an_exit_phrase_sample :
  lower sample_lower (strip (py "mostre os pets")) ∉ exit_phrases.
Proof.
  intros H. apply list_elem_of_In in H. vm_compute in H.
  repeat (destruct H as [H|H]; [discriminate H|]). exact H.
Defined.

(** C1, as stated, fails: a final event that carries the text "Pronto" and
    also requests a tool invocation leaves the fallback sentence as the
    output. *)
Lemma C1_counterexample :
  is_final_response (final_event_with_call (py "listPets") (py "Pronto")) = true
  /\ first_text (final_event_with_call (py "listPets") (py "Pronto"))
     = Some (py "Pronto")
  /\ (call_agent sample_uuid (list stream) replay (py "oi")
        [ended [final_event_with_call (py "listPets") (py "Pronto")]]).2
     = Return fallback_text
  /\ fallback_text <> py "Pronto".
Proof. repeat split. discriminate. Qed.

Lemma C1_witness :
  (call_agent sample_uuid (list stream) replay (py "oi")
     [ended [tool_event (py "listPets");
             final_event ([32] ++ py "Pronto" ++ [10]);
             final_event_with_call (py "listPets") (py "ignorado")]]).2
  = Return (py "Pronto").
Proof.
  apply (C1_last_final_text_stripped_is_output sample_uuid (list stream) replay
           (py "oi") _ [tool_event (py "listPets")]
           (final_event ([32] ++ py "Pronto" ++ [10]))
           [final_event_with_call (py "listPets") (py "ignorado")]
           ([32] ++ py "Pronto" ++ [10])).
  - reflexivity.
  - reflexivity.
  - repeat constructor.
  - apply sets_response_final_event.
  - reflexivity.
  - repeat constructor.
Defined.

Lemma C2_witness :
  (call_agent sample_uuid (list stream) replay (py "oi")
     [ended [tool_event (py "listPets")]]).2 = Return fallback_text
  /\ (forall out,
        (call_agent sample_uuid (list stream) replay (py "oi")
           [ended [tool_event (py "listPets")]]).2 = Return out -> out <> []).
Proof.
  destruct (C2_no_final_event_gives_fallback sample_uuid (list stream) replay
              (py "oi") [ended [tool_event (py "listPets")]]) as [Hend Hout].
  - repeat constructor.
  - split; [apply Hend; reflexivity|exact Hout].
Defined.

Lemma C3_witness :
  (call_agent sample_uuid (list stream) replay (strip (py "mostre os pets"))
     [raising [tool_event (py "listPets")]
              (Exception (py "RuntimeError") (py "boom"))]).2
    = Return (error_marker ++ py "boom")
  /\ exists t runner' t',
      iteration sample_lower sample_uuid (list stream) replay
        [raising [tool_event (py "listPets")]
                 (Exception (py "RuntimeError") (py "boom"))]
        (Line (py "mostre os pets"))
      = (t ++ [print ([13] ++ py "🤖 Agente: " ++ error_marker ++ py "boom")],
         runner', Continue)
      /\ loop sample_lower sample_uuid (list stream) replay
           [raising [tool_event (py "listPets")]
                    (Exception (py "RuntimeError") (py "boom"))]
           (Line (py "mostre os pets") :: [Line (py "sair")])
         = ((t ++ [print ([13] ++ py "🤖 Agente: " ++ error_marker ++ py "boom")])
              ++ Input input_prompt :: t',
            (loop sample_lower sample_uuid (list stream) replay runner'
               [Line (py "sair")]).2).
Proof.
  apply (C3_turn_error_is_caught_and_loop_continues sample_lower sample_uuid
           (list stream) replay _ (py "mostre os pets")
           (py "RuntimeError") (py "boom") [Line (py "sair")]).
  - exact not_an_exit_phrase_sample.
  - discriminate.
  - reflexivity.
Defined.

Lemma C4_witness :
  iteration sample_lower sample_uuid (list stream) replay [] (Line (py "SaIr"))
    = ([Input input_prompt; print farewell], [], Break)
  /\ loop sample_lower sample_uuid (list stream) replay []
       (Line (py "SaIr") :: [Line (py "oi")])
     = ([Input input_prompt; print farewell], Exiting)
  /\ filter is_dispatch
       (loop sample_lower sample_uuid (list stream) replay []
          (Line (py "SaIr") :: [Line (py "oi")])).1 = [].
Proof.
  apply (C4_exit_phrase_ends_loop_without_dispatch sample_lower sample_uuid
           (list stream) replay [] (py "SaIr") (py "sair") [Line (py "oi")]).
  - apply list_elem_of_In. left. reflexivity.
  - repeat (constructor; [first [left; reflexivity | right; reflexivity]|]).
    constructor.
Defined.

Lemma C5_witness :
  iteration sample_lower sample_uuid (list stream) replay [] (Line [32; 9; 160])
    = ([Input input_prompt; print empty_warning], [], Continue)
  /\ (exists t,
        loop sample_lower sample_uuid (list stream) replay []
          (Line [32; 9; 160] :: [Line (py "sair")])
        = ([Input input_prompt; print empty_warning] ++ Input input_prompt :: t,
           (loop sample_lower sample_uuid (list stream) replay []
              [Line (py "sair")]).2))
  /\ (forall other : pystr,
        strip other <> [] ->
        lower sample_lower (strip other) ∉ exit_phrases ->
        exists t,
          (iteration sample_lower sample_uuid (list stream) replay []
             (Line other)).1.1
          = Input input_prompt :: Print processing_notice []
              :: RunAsync USER_ID_OPENAPI (SESSION_ID_OPENAPI sample_uuid)
                   (new_message (strip other))
              :: t).
Proof.
  apply (C5_blank_line_warns_and_reprompts sample_lower sample_uuid
           (list stream) replay [] [32; 9; 160] [Line (py "sair")]).
  repeat constructor.
Defined.

Lemma C7_witness :
  main sample_lower sample_uuid (list stream) [] replay None None
    ∅ [Line (py "oi")]
    = ([], Raised (Exception (py "ValueError") credential_message))
  /\ credential_message <> [].
Proof.
  apply (C7_missing_credential_is_fatal_before_anything sample_lower sample_uuid
           (list stream) [] replay None None ∅ [Line (py "oi")]).
  apply lookup_empty.
Defined.

Lemma C8_witness :
  (exists runner',
     iteration sample_lower sample_uuid (list stream) replay
       [ended [tool_event (py "listPets"); final_event (py "Aqui estão os pets")]]
       (Line (py "mostre os pets"))
     = ([ Input input_prompt;
          Print processing_notice [];
          RunAsync USER_ID_OPENAPI (SESSION_ID_OPENAPI sample_uuid)
            (new_message (strip (py "mostre os pets")));
          print (py "🔧 Executando: listPets");
          print ([13] ++ py "🤖 Agente: Aqui estão os pets") ],
        runner', Continue))
  /\ (consume [tool_event (py "listPets"); final_event (py "Aqui estão os pets")]
        None fallback_text).2
     = (consume [final_event (py "Aqui estão os pets")] None fallback_text).2.
Proof.
  apply (C8_list_pets_scenario sample_lower sample_uuid (list stream) replay
           [ended [tool_event (py "listPets");
                   final_event (py "Aqui estão os pets")]]
           (py "mostre os pets")
           (tool_event (py "listPets")) (final_event (py "Aqui estão os pets")) []).
  - exact not_an_exit_phrase_sample.
  - discriminate.
  - reflexivity.
  - reflexivity.
  - reflexivity.
  - apply sets_response_final_event.
  - reflexivity.
Defined.

Lemma C10_witness :
  (exists out before after,
      (call_agent sample_uuid (list stream) replay (py "oi")
         [ended [tool_event (py "listPets");
                 final_event ([32; 9] ++ py "Aqui estão os pets" ++ [13; 10])]]).2
        = Return out
      /\ [32; 9] ++ py "Aqui estão os pets" ++ [13; 10] = before ++ out ++ after
      /\ whitespace_only before /\ whitespace_only after
      /\ starts_with_space out = false
      /\ ends_with_space out = false)
  /\ (call_agent sample_uuid (list stream) replay (py "oi")
        [ended [tool_event (py "listPets");
                final_event ([32; 9] ++ py "Aqui estão os pets" ++ [13; 10])]]).2
     = Return (py "Aqui estão os pets")
  /\ (whitespace_only ([32; 9] ++ py "Aqui estão os pets" ++ [13; 10]) ->
      (call_agent sample_uuid (list stream) replay (py "oi")
         [ended [tool_event (py "listPets");
                 final_event ([32; 9] ++ py "Aqui estão os pets" ++ [13; 10])]]).2
        = Return []
      /\ [] <> fallback_text).
Proof.
  apply (C10_final_text_is_stripped sample_uuid (list stream) replay (py "oi")
           [ended [tool_event (py "listPets");
                   final_event ([32; 9] ++ py "Aqui estão os pets" ++ [13; 10])]]
           [tool_event (py "listPets")]
           (final_event ([32; 9] ++ py "Aqui estão os pets" ++ [13; 10])) []
           ([32; 9] ++ py "Aqui estão os pets" ++ [13; 10])).
  - reflexivity.
  - reflexivity.
  - repeat constructor.
  - reflexivity.
  - reflexivity.
  - reflexivity.
Defined.

(** Whitespace-only final text: the output is the empty string, not the
    fallback sentence. *)
Example whitespace_only_final_text_gives_empty_output :
  (call_agent sample_uuid (list stream) replay (py "oi")
     [ended [final_event [32; 10; 9]]]).2 = Return []
  /\ fallback_text <> [].
Proof. split; [reflexivity|discriminate]. Qed.

(** C9, at a run where the code departs from it. Run by [asyncio.run] of CPython 3.11
    and later, an interrupt signal that arrives while [input] waits does not
    make [input] raise: the task is marked for cancellation and the
    cancellation is raised at its next await, inside the turn of the line
    read next. At that run the loop prints no farewell and does not leave
    through [break]: it ends by the cancellation, which neither handler of
    the loop catches. *)
Lemma C9_interrupt_signal_skips_loop_farewell :
  loop sample_lower sample_uuid (list stream) replay
    [raising [] (OtherBaseException (py "CancelledError") [])]
    [Line (py "oi"); Line (py "sair")]
  = ([Input input_prompt; Print processing_notice [];
      RunAsync USER_ID_OPENAPI (SESSION_ID_OPENAPI sample_uuid)
        (new_message (py "oi"))],
     Raised (OtherBaseException (py "CancelledError") [])).
Proof. vm_compute. reflexivity. Qed.

(** A whole run: two turns and an exit. Both dispatches name the one user
    and the one session created at start-up. *)
Example two_turns_one_session :
  filter (fun a => is_dispatch a || is_create_session a)
    (main sample_lower sample_uuid (list stream)
       [ended [final_event (py "Rex")]; ended [final_event (py "Mimi")]]
       replay None None sample_environ
       [Line (py "mostre o pet 123"); Line (py "crie um gato chamado Mimi");
        Line (py "sair")]).1
  = [ CreateSession APP_NAME_OPENAPI USER_ID_OPENAPI (SESSION_ID_OPENAPI sample_uuid);
      RunAsync USER_ID_OPENAPI (SESSION_ID_OPENAPI sample_uuid)
        (new_message (py "mostre o pet 123"));
      RunAsync USER_ID_OPENAPI (SESSION_ID_OPENAPI sample_uuid)
        (new_message (py "crie um gato chamado Mimi")) ].
Proof. vm_compute. reflexivity. Qed.

(** An empty credential counts as a missing one. *)
Example empty_credential_is_fatal :
  main sample_lower sample_uuid (list stream) [] replay None None
    {[ py "GOOGLE_API_KEY" := [] ]} []
  = ([], Raised (Exception (py "ValueError") credential_message)).
Proof. vm_compute. reflexivity. Qed.

(** An interrupt while the runner is awaited is caught by the same handler
    of the loop. *)
Example interrupt_during_dispatch :
  (loop sample_lower sample_uuid (list stream) replay
     [raising [] KeyboardInterrupt] [Line (py "oi"); Line (py "sair")]).2
  = Exiting.
Proof. vm_compute. reflexivity. Qed.

(** End of input: [input] raises, the loop reports it and prompts again. *)
Example end_of_input_keeps_looping :
  loop sample_lower sample_uuid (list stream) replay []
    [InputRaises (Exception (py "EOFError") (py "EOF when reading a line"))]
  = ([Input input_prompt;
      print ([10] ++ py "❌ Erro: " ++ py "EOF when reading a line");
      Input input_prompt], AwaitingInput).
Proof. vm_compute. reflexivity. Qed.

(** ** The further properties at sample inputs *)

Lemma interrupt_during_turn_ends_loop_witness :
  (call_agent sample_uuid (list stream) replay (strip (py "mostre os pets"))
     [raising [tool_event (py "listPets")] KeyboardInterrupt]).2
    = Raise KeyboardInterrupt
  /\ loop sample_lower sample_uuid (list stream) replay
       [raising [tool_event (py "listPets")] KeyboardInterrupt]
       (Line (py "mostre os pets") :: [Line (py "oi")])
     = (Input input_prompt :: Print processing_notice []
          :: (call_agent sample_uuid (list stream) replay
                (strip (py "mostre os pets"))
                [raising [tool_event (py "listPets")] KeyboardInterrupt]).1.1
          ++ [print interrupt_farewell],
        Exiting).
Proof.
  apply (interrupt_during_turn_ends_loop sample_lower sample_uuid (list stream)
           replay _ (py "mostre os pets") [Line (py "oi")]).
  - exact not_an_exit_phrase_sample.
  - discriminate.
  - reflexivity.
Defined.

Lemma one_notice_per_tool_event_witness :
  (consume [tool_event (py "listPets"); final_event (py "Rex");
            tool_event (py "showPetById")]
           (Some (Exception (py "RuntimeError") (py "boom"))) fallback_text).1
  = [print (py "🔧 Executando: listPets"); print (py "🔧 Executando: showPetById")].
Proof.
  apply (one_notice_per_tool_event
           [tool_event (py "listPets"); final_event (py "Rex");
            tool_event (py "showPetById")]
           (Some (Exception (py "RuntimeError") (py "boom"))) fallback_text).
  repeat constructor.
Defined.

Lemma final_event_without_text_is_an_error_witness :
  call_agent sample_uuid (list stream) replay (py "oi")
    [ended [tool_event (py "listPets"); final_event_without_text;
            final_event (py "Rex")]]
  = (RunAsync USER_ID_OPENAPI (SESSION_ID_OPENAPI sample_uuid) (new_message (py "oi"))
       :: omap tool_notice [tool_event (py "listPets")],
     (replay [ended [tool_event (py "listPets"); final_event_without_text;
                     final_event (py "Rex")]]
        USER_ID_OPENAPI (SESSION_ID_OPENAPI sample_uuid) (new_message (py "oi"))).2,
     Return (error_marker ++ py "'NoneType' object has no attribute 'strip'")).
Proof.
  apply (final_event_without_text_is_an_error sample_uuid (list stream) replay
           (py "oi") _ [tool_event (py "listPets")] final_event_without_text
           [final_event (py "Rex")]).
  - reflexivity.
  - repeat constructor.
  - reflexivity.
  - reflexivity.
Defined.

Lemma loop_only_ends_by_exit_or_interrupt_witness :
  (loop sample_lower sample_uuid unit
     (always (raising [] (Exception (py "RuntimeError") (py "boom")))) tt
     [Line (py "mostre os pets"); Line [];
      InputRaises (Exception (py "EOFError") (py "EOF when reading a line"));
      InputRaises (Exception (py "EOFError") (py "EOF when reading a line"))]).2
  = AwaitingInput.
Proof.
  apply (loop_only_ends_by_exit_or_interrupt sample_lower sample_uuid unit
           (always (raising [] (Exception (py "RuntimeError") (py "boom"))))).
  - intros runner uid sid msg. exact I.
  - repeat constructor.
    + exact not_an_exit_phrase_sample.
    + apply empty_not_exit_phrase.
Defined.

Lemma padded_exit_phrase_ends_loop_witness :
  loop sample_lower sample_uuid (list stream) replay []
    (Line ([32; 9] ++ py "QuIt" ++ [32; 13]) :: [Line (py "oi")])
  = ([Input input_prompt; print farewell], Exiting).
Proof.
  apply (padded_exit_phrase_ends_loop sample_lower sample_uuid (list stream)
           replay [] [32; 9] (py "QuIt") [32; 13] (py "quit") [Line (py "oi")]).
  - repeat constructor.
  - repeat constructor.
  - apply list_elem_of_In. right. left. reflexivity.
  - repeat (constructor; [first [left; reflexivity | right; reflexivity]|]).
    constructor.
Defined.

Lemma session_failure_is_reported_and_loop_not_entered_witness :
  main sample_lower sample_uuid (list stream) [] replay None
    (Some (Exception (py "RuntimeError") (py "sem armazenamento")))
    sample_environ [Line (py "oi")]
  = ([Uuid4; BuildToolset; BuildAgent AGENT_NAME_OPENAPI GEMINI_MODEL]
       ++ banner
       ++ [CreateSession APP_NAME_OPENAPI USER_ID_OPENAPI
             (SESSION_ID_OPENAPI sample_uuid);
           print (py "❌ Erro ao inicializar o sistema: " ++ py "sem armazenamento")],
     Exiting).
Proof.
  apply (session_failure_is_reported_and_loop_not_entered sample_lower sample_uuid
           (list stream) [] replay None
           (Some (Exception (py "RuntimeError") (py "sem armazenamento")))
           sample_environ [Line (py "oi")] (py "RuntimeError")
           (py "sem armazenamento")).
  - vm_compute. reflexivity.
  - reflexivity.
  - reflexivity.
Defined.

Lemma interrupt_during_setup_is_caught_by_main_witness :
  (interactive_terminal sample_lower sample_uuid (list stream) [] replay
     (Some KeyboardInterrupt) [Line (py "oi")]).2 = Raised KeyboardInterrupt
  /\ main sample_lower sample_uuid (list stream) [] replay None
       (Some KeyboardInterrupt) sample_environ [Line (py "oi")]
     = ([Uuid4; BuildToolset; BuildAgent AGENT_NAME_OPENAPI GEMINI_MODEL]
          ++ banner
          ++ [CreateSession APP_NAME_OPENAPI USER_ID_OPENAPI
                (SESSION_ID_OPENAPI sample_uuid);
              print ([10] ++ py "👋 Programa encerrado.")],
        Exiting).
Proof.
  apply (interrupt_during_setup_is_caught_by_main sample_lower sample_uuid
           (list stream) [] replay None (Some KeyboardInterrupt)
           sample_environ [Line (py "oi")]).
  - vm_compute. reflexivity.
  - reflexivity.
  - reflexivity.
Defined.

Lemma other_base_exception_escapes_the_terminal_witness :
  interactive_terminal sample_lower sample_uuid (list stream)
    [raising [tool_event (py "listPets")] (OtherBaseException (py "SystemExit") [])]
    replay None (Line (py "mostre os pets") :: [Line (py "sair")])
  = (banner
       ++ [CreateSession APP_NAME_OPENAPI USER_ID_OPENAPI
             (SESSION_ID_OPENAPI sample_uuid);
           print (py "✅ Sistema inicializado com sucesso!");
           print (py "💬 Digite sua mensagem (ou 'sair' para terminar):");
           Input input_prompt;
           Print processing_notice []]
       ++ (call_agent sample_uuid (list stream) replay
             (strip (py "mostre os pets"))
             [raising [tool_event (py "listPets")]
                      (OtherBaseException (py "SystemExit") [])]).1.1,
     Raised (OtherBaseException (py "SystemExit") [])).
Proof.
  apply (other_base_exception_escapes_the_terminal sample_lower sample_uuid
           (list stream)
           [raising [tool_event (py "listPets")]
                    (OtherBaseException (py "SystemExit") [])]
           replay None (py "mostre os pets") [Line (py "sair")]
           (py "SystemExit") []).
  - reflexivity.
  - exact not_an_exit_phrase_sample.
  - discriminate.
  - reflexivity.
Defined.

Lemma session_id_determines_uuid_witness :
  SESSION_ID_OPENAPI (py "a") <> SESSION_ID_OPENAPI (py "b").
Proof. apply (session_id_determines_uuid (py "a") (py "b")). discriminate. Defined.

